(** * The state-aware weather tool of [agent.py]

    A shallow embedding of [get_weather_stateful] together with the pieces
    of the Python runtime it relies on: strings as sequences of Unicode
    code points, [str.lower], [str.replace], [str.capitalize], dictionaries,
    binary64 arithmetic and the [.0f] format.

    Each tool is embedded twice. The first embedding gives the value the
    tool returns and the session state it leaves; the calls to [print],
    which take no part in either, are not in it. The second, in module
    [Traced], has the calls to [print] as well: it writes the trace to
    standard output and raises [UnicodeEncodeError] when a line cannot be
    encoded. *)

From Stdlib Require Import ZArith NArith QArith Qround Qabs List String Ascii.
From Stdlib Require Import Floats.SpecFloat.
From stdpp Require Import gmap.

Local Open Scope N_scope.

(** ** Python strings *)

(** A [str] is a sequence of Unicode code points. *)
Abbreviation codepoint := N (only parsing).
Abbreviation str := (list N) (only parsing).

(** ASCII literals of the source are written with [py "..."]. *)
Definition py (s : string) : str :=
  List.map N_of_ascii (list_ascii_of_string s).

(** U+00B0 DEGREE SIGN, which is not an ASCII character. *)
Definition degree : codepoint := 176.

(** The part of the Unicode character database the case operations read
    for code points outside ASCII: the full lower-case and title-case
    mappings (one to three code points each) and the two properties used
    by the final-sigma rule. *)
Record UnicodeData := {
  ucd_lower : codepoint -> str;
  ucd_title : codepoint -> str;
  ucd_cased : codepoint -> bool;
  ucd_case_ignorable : codepoint -> bool
}.

Definition is_ascii (c : codepoint) : bool := c <? 128.

Definition ascii_lower (c : codepoint) : codepoint :=
  if (65 <=? c) && (c <=? 90) then c + 32 else c.

Definition ascii_upper (c : codepoint) : codepoint :=
  if (97 <=? c) && (c <=? 122) then c - 32 else c.

Definition capital_sigma : codepoint := 931.   (* U+03A3 *)
Definition final_sigma : codepoint := 962.     (* U+03C2 *)
Definition small_sigma : codepoint := 963.     (* U+03C3 *)

Section CaseOperations.
Variable u : UnicodeData.

Definition to_lower_full (c : codepoint) : str :=
  if is_ascii c then [ascii_lower c] else ucd_lower u c.

Definition to_title_full (c : codepoint) : str :=
  if is_ascii c then [ascii_upper c] else ucd_title u c.

(** The first code point of [s] that is not case-ignorable, if any. *)
Fixpoint skip_case_ignorable (s : str) : option codepoint :=
  match s with
  | [] => None
  | c :: rest =>
      if ucd_case_ignorable u c then skip_case_ignorable rest else Some c
  end.

(** [before] holds the code points that precede the sigma, nearest
    first; [after] those that follow it. *)
Definition handle_capital_sigma (before after : str) : codepoint :=
  let preceded :=
    match skip_case_ignorable before with
    | Some c => ucd_cased u c
    | None => false
    end in
  let followed :=
    match skip_case_ignorable after with
    | Some c => ucd_cased u c
    | None => false
    end in
  if preceded && negb followed then final_sigma else small_sigma.

Definition lower_ucs4 (before : str) (c : codepoint) (after : str) : str :=
  if c =? capital_sigma then [handle_capital_sigma before after]
  else to_lower_full c.

(** Lower-cases [s], which stands in a string after the code points
    [before] (nearest first). *)
Fixpoint lower_from (before s : str) : str :=
  match s with
  | [] => []
  | c :: rest => lower_ucs4 before c rest ++ lower_from (c :: before) rest
  end.

(** [s.lower()] *)
Definition lower (s : str) : str := lower_from [] s.

(** [s.capitalize()]: the first code point title-cased, every other one
    lower-cased. *)
Definition capitalize (s : str) : str :=
  match s with
  | [] => []
  | c :: rest => to_title_full c ++ lower_from [c] rest
  end.
End CaseOperations.

Definition space : codepoint := 32.            (* U+0020 *)

(** [s.replace(" ", "")]: every occurrence of the one-character string
    [" "] is removed. *)
Definition remove_spaces (s : str) : str :=
  List.filter (fun c => negb (c =? space)) s.

(** ** Exceptions *)

(** The exceptions the operations below can raise. *)
Inductive exn :=
| KeyError (key : str)
| ZeroDivisionError
| OverflowError.

(** A computation either raises or returns. *)
Definition M (A : Type) : Type := exn + A.

Definition ret {A} (a : A) : M A := inr a.
Definition raise {A} (e : exn) : M A := inl e.

Definition bind {A B} (m : M A) (k : A -> M B) : M B :=
  match m with
  | inl e => inl e
  | inr a => k a
  end.

Notation "x <- m ;; k" := (bind m (fun x => k))
  (at level 100, m at next level, right associativity).

(** ** Dictionaries *)

(** [d[k]], which raises [KeyError] on a missing key. *)
Definition getitem {V} (d : gmap str V) (k : str) : M V :=
  match d !! k with
  | Some v => ret v
  | None => raise (KeyError k)
  end.

(** [k in d] *)
Definition contains {V} (d : gmap str V) (k : str) : bool :=
  bool_decide (is_Some (d !! k)).

(** [d.get(k, default)] *)
Definition get {V} (d : gmap str V) (k : str) (default : V) : V :=
  match d !! k with
  | Some v => v
  | None => default
  end.

(** ** Numbers *)

(** Python's [float] is IEEE 754 binary64. *)
Definition prec : Z := 53.
Definition emax : Z := 1024.

Abbreviation float := spec_float (only parsing).

(** A number is an [int] of any size or a [float]. *)
Inductive num :=
| Int (z : Z)
| Float (f : float).

(** [float(z)]: the nearest binary64, [OverflowError] when there is none. *)
Definition float_of_int (z : Z) : M float :=
  match binary_normalize prec emax z 0 false with
  | S754_infinity _ => raise OverflowError
  | f => ret f
  end.

(** [a / b] on two ints. CPython rounds the exact quotient once; dividing
    the two converted operands gives the same float whenever both are
    below [2^53] in magnitude, as every operand in this program is. *)
Definition int_truediv (a b : Z) : M float :=
  if (b =? 0)%Z then raise ZeroDivisionError
  else
    x <- float_of_int a ;;
    y <- float_of_int b ;;
    ret (SFdiv prec emax x y).

(** [x + n] for a float [x] and an int [n]. *)
Definition float_add_int (x : float) (n : Z) : M float :=
  y <- float_of_int n ;;
  ret (SFadd prec emax x y).

(** ** Formatting *)

Fixpoint digits (d : Decimal.uint) : str :=
  match d with
  | Decimal.Nil => []
  | Decimal.D0 d => 48 :: digits d
  | Decimal.D1 d => 49 :: digits d
  | Decimal.D2 d => 50 :: digits d
  | Decimal.D3 d => 51 :: digits d
  | Decimal.D4 d => 52 :: digits d
  | Decimal.D5 d => 53 :: digits d
  | Decimal.D6 d => 54 :: digits d
  | Decimal.D7 d => 55 :: digits d
  | Decimal.D8 d => 56 :: digits d
  | Decimal.D9 d => 57 :: digits d
  end.

(** The decimal numeral of an integer, as [str(z)] writes it. *)
Definition decimal (z : Z) : str :=
  match z with
  | Z0 => py "0"
  | Zpos p => digits (Pos.to_uint p)
  | Zneg p => py "-" ++ digits (Pos.to_uint p)
  end.

(** The integer nearest to [m * 2^e], a tie going to the even one. *)
Definition round_half_even (m : positive) (e : Z) : Z :=
  match e with
  | Zneg k =>
      let d := (2 ^ Zpos k)%Z in
      let q := (Zpos m / d)%Z in
      let r := (Zpos m mod d)%Z in
      match (2 * r ?= d)%Z with
      | Lt => q
      | Gt => (q + 1)%Z
      | Eq => if Z.even q then q else (q + 1)%Z
      end
  | _ => (Zpos m * 2 ^ e)%Z
  end.

Definition sign (s : bool) : str := if s then py "-" else [].

(** [format(f, ".0f")] for a float: the exact value of [f] rounded to an
    integer, with the sign of [f]. *)
Definition format_0f_float (f : float) : str :=
  match f with
  | S754_nan => py "nan"
  | S754_infinity s => sign s ++ py "inf"
  | S754_zero s => sign s ++ py "0"
  | S754_finite s m e => sign s ++ decimal (round_half_even m e)
  end.

(** [f"{x:.0f}"]: an int is converted to a float first. *)
Definition format_0f (x : num) : M str :=
  match x with
  | Int z => f <- float_of_int z ;; ret (format_0f_float f)
  | Float f => ret (format_0f_float f)
  end.

(** ** Session state *)

(** The values a session state holds: strings and primitives. *)
Inductive value :=
| VNone
| VBool (b : bool)
| VInt (z : Z)
| VFloat (f : float)
| VStr (s : str).

(** [v == s] for a string literal [s]: only an equal string is equal. *)
Definition eq_str (v : value) (s : str) : bool :=
  match v with
  | VStr t => bool_decide (t = s)
  | _ => false
  end.

(** ** The tool *)

Record weather := { temp_c : Z; condition : str }.

Definition mock_weather_db : gmap str weather :=
  {[ py "newyork" := {| temp_c := 25; condition := py "sunny" |};
     py "london" := {| temp_c := 15; condition := py "cloudy" |};
     py "tokyo" := {| temp_c := 18; condition := py "light rain" |} ]}.

Section Tool.
Variable u : UnicodeData.

Definition normalize (city : str) : str := remove_spaces (lower u city).

Definition get_weather_stateful (city : str) (state : gmap str value)
  : M (gmap str str * gmap str value) :=
  let preferred_unit :=
    get state (py "user_preference_temperature_unit") (VStr (py "Celsius")) in
  let city_normalized := normalize city in
  if contains mock_weather_db city_normalized then
    data <- getitem mock_weather_db city_normalized ;;
    let temp_c := temp_c data in
    let condition := condition data in
    temp <-
      (if eq_str preferred_unit (py "Fahrenheit") then
         q <- int_truediv (temp_c * 9)%Z 5 ;;
         f <- float_add_int q 32 ;;
         ret (Float f, degree :: py "F")
       else
         ret (Int temp_c, degree :: py "C")) ;;
    let '(temp_value, temp_unit) := temp in
    shown <- format_0f temp_value ;;
    let report :=
      py "The weather in " ++ capitalize u city ++ py " is " ++ condition
      ++ py " with a temperature of " ++ shown ++ temp_unit ++ py "." in
    let result := {[ py "status" := py "success"; py "report" := report ]} in
    let state := <[ py "last_city_checked_stateful" := VStr city ]> state in
    ret (result, state)
  else
    let error_msg :=
      py "Sorry, I don't have weather information for '" ++ city ++ py "'." in
    ret ({[ py "status" := py "error"; py "error_message" := error_msg ]},
         state).
End Tool.

(** ** Reading an outcome *)

Abbreviation outcome := (M (gmap str str * gmap str value)) (only parsing).

(** The field [name] of the returned dictionary. *)
Definition field (name : string) (out : outcome) : option str :=
  match out with
  | inr (result, _) => result !! py name
  | inl _ => None
  end.

(** The session state the call leaves behind. *)
Definition state_after (out : outcome) : option (gmap str value) :=
  match out with
  | inr (_, state) => Some state
  | inl _ => None
  end.

(** A character database without any cased code point outside ASCII. It
    is exact on every string whose non-ASCII code points are caseless,
    such as CJK text. *)
Definition uncased : UnicodeData :=
  {| ucd_lower c := [c];
     ucd_title c := [c];
     ucd_cased c := false;
     ucd_case_ignorable c := false |}.

(** ** The behaviour in the words of the specification *)

Definition table_keys : list str := [py "newyork"; py "london"; py "tokyo"].

Definition unit_key : str := py "user_preference_temperature_unit".
Definition last_city_key : str := py "last_city_checked_stateful".

Definition fahrenheit_of (t : Z) : Q := inject_Z t * 9 / 5 + 32.

(** Rounding to the nearest integer, a tie going up. *)
Definition nearest_integer (q : Q) : Z := Qfloor (q + (1 # 2)).

Definition celsius_text (t : Z) : str := decimal t ++ degree :: py "C".

Definition fahrenheit_text (t : Z) : str :=
  decimal (nearest_integer (fahrenheit_of t)) ++ degree :: py "F".

Definition report_text (shown_city condition temperature : str) : str :=
  py "The weather in " ++ shown_city ++ py " is " ++ condition
  ++ py " with a temperature of " ++ temperature ++ py ".".

Definition error_text (city : str) : str :=
  py "Sorry, I don't have weather information for '" ++ city ++ py "'.".

(** The capitalisation the specification describes: the first character
    upper-cased, the others as they are. *)
Definition first_upper_rest_unchanged (s : str) : str :=
  match s with
  | [] => []
  | c :: rest => ascii_upper c :: rest
  end.

(** The three entries of the table. *)
Definition in_table (w : weather) : Prop :=
  w = {| temp_c := 25; condition := py "sunny" |} \/
  w = {| temp_c := 15; condition := py "cloudy" |} \/
  w = {| temp_c := 18; condition := py "light rain" |}.

Definition all_ascii (s : str) : bool := forallb is_ascii s.

(** Sample inputs. *)
Definition fahrenheit_state : gmap str value :=
  {[ unit_key := VStr (py "Fahrenheit") ]}.

Definition lowercase_fahrenheit_state : gmap str value :=
  {[ unit_key := VStr (py "fahrenheit") ]}.


(** ** Successive calls on one session *)

(** Whether the tool finds [city]. *)
Definition found (u : UnicodeData) (city : str) : bool :=
  contains mock_weather_db (normalize u city).

(** The tool called for each city in turn, every call on the state the
    call before it left; the results are collected in order. *)
Fixpoint calls (u : UnicodeData) (cities : list str) (state : gmap str value)
  : M (list (gmap str str) * gmap str value) :=
  match cities with
  | [] => ret ([], state)
  | city :: rest =>
      out <- get_weather_stateful u city state ;;
      later <- calls u rest (snd out) ;;
      ret (fst out :: fst later, snd later)
  end.

(** The result alone of one call. *)
Definition result_of (out : outcome) : option (gmap str str) :=
  match out with
  | inr (result, _) => Some result
  | inl _ => None
  end.

(** ** The stateless tool *)

Module Stateless.

Definition mock_weather_db : gmap str (gmap str str) :=
  {[ py "newyork" :=
       {[ py "status" := py "success";
          py "report" :=
            py "The weather in New York is sunny with a temperature of 25"
            ++ degree :: py "C." ]};
     py "london" :=
       {[ py "status" := py "success";
          py "report" :=
            py "It's cloudy in London with a temperature of 15"
            ++ degree :: py "C." ]};
     py "tokyo" :=
       {[ py "status" := py "success";
          py "report" :=
            py "Tokyo is experiencing light rain and a temperature of 18"
            ++ degree :: py "C." ]} ]}.

Definition get_weather (u : UnicodeData) (city : str) : M (gmap str str) :=
  let city_normalized := remove_spaces (lower u city) in
  if contains mock_weather_db city_normalized then
    getitem mock_weather_db city_normalized
  else
    ret {[ py "status" := py "error";
           py "error_message" :=
             py "Sorry, I don't have weather information for '"
             ++ city ++ py "'." ]}.

End Stateless.

(** [s] occurs in [t]. *)
Definition occurs_in (s t : str) : Prop :=
  exists before after, t = before ++ s ++ after.

(** ** The greeting tool *)

(** [name] is [None] when the call leaves the argument out. *)
Definition say_hello (name : option str) : str :=
  let name := match name with Some n => n | None => py "there" end in
  py "Hello, " ++ name ++ py "!".

(** ** The response loop of the driver script *)

Module Driver.

(** What the loop reads of an event. *)
Record Part := { text : option str }.
Record Content := { parts : option (list Part) }.
Record EventActions := { escalate : option bool }.
Record Event := {
  is_final_response : bool;
  content : option Content;
  actions : option EventActions;
  error_message : option str
}.

Inductive exception :=
| IndexError
| Raised (message : str).

(** One step of the event stream: it yields an event or raises. *)
Inductive step :=
| Yield (event : Event)
| Raise (e : exception).

(** [event.content and event.content.parts] *)
Definition content_parts (event : Event) : list Part :=
  match content event with
  | Some c => match parts c with Some ps => ps | None => [] end
  | None => []
  end.

(** [event.actions and event.actions.escalate] *)
Definition escalates (event : Event) : bool :=
  match actions event with
  | Some a => match escalate a with Some b => b | None => false end
  | None => false
  end.

(** [event.error_message or 'No specific message.'] *)
Definition message_or_default (event : Event) : str :=
  match error_message event with
  | Some (c :: m) => c :: m
  | _ => py "No specific message."
  end.

(** The body of the [async for] loop, from the text held so far: [inl]
    when an exception leaves the loop, [inr] with the text it ends with.
    The text is [None] for Python's [None]. *)
Fixpoint response_loop (stream : list step) (final_response_text : option str)
  : exception + option str :=
  match stream with
  | [] => inr final_response_text
  | Raise e :: _ => inl e
  | Yield event :: rest =>
      if is_final_response event then
        if bool_decide (content_parts event <> []) then
          match content_parts event with
          | part :: _ => inr (text part)
          | [] => inl IndexError
          end
        else if escalates event then
          inr (Some (py "Agent escalated: " ++ message_or_default event))
        else
          inr final_response_text
      else response_loop rest final_response_text
  end.

Definition final_response_text (stream : list step) : exception + option str :=
  response_loop stream (Some (py "Agent did not produce a final response.")).

(** A step the loop passes over: an event that is not a final response. *)
Definition passed_over (s : step) : bool :=
  match s with
  | Yield event => negb (is_final_response event)
  | Raise _ => false
  end.

(** Sample events. *)
Definition thinking : Event :=
  {| is_final_response := false; content := None; actions := None;
     error_message := None |}.

Definition answer (t : option str) : Event :=
  {| is_final_response := true;
     content := Some {| parts := Some [ {| text := t |} ] |};
     actions := None; error_message := None |}.

Definition silent : Event :=
  {| is_final_response := true; content := Some {| parts := Some [] |};
     actions := Some {| escalate := None |}; error_message := None |}.

End Driver.

(** ** The tools with their trace output *)

Module Traced.

(** What the tools read of the Python runtime besides the case tables:
    which code points [sys.stdout] can write under its encoding and error
    handler, which code points from U+0080 on [str.isprintable] takes as
    printable, and the [repr] of a float. *)
Record Runtime := {
  stdout_writes : codepoint -> bool;
  printable : codepoint -> bool;
  float_repr : float -> str
}.

Inductive exception :=
| UnicodeEncodeError
| Raised (e : exn).

(** The text written to standard output so far and the session state. *)
Record world := { stdout : str; session : gmap str value }.

(** A computation changes the world and raises or returns. *)
Definition IO (A : Type) : Type := world -> world * (exception + A).

Definition io_ret {A} (a : A) : IO A := fun w => (w, inr a).

Definition io_bind {A B} (m : IO A) (k : A -> IO B) : IO B :=
  fun w =>
    match m w with
    | (w', inl e) => (w', inl e)
    | (w', inr a) => k a w'
    end.

Notation "x <~ m ;; k" := (io_bind m (fun x => k))
  (at level 100, m at next level, right associativity).
Notation "m ;;; k" := (io_bind m (fun _ => k))
  (at level 100, right associativity).

(** A computation without output, run as it is. *)
Definition lift {A} (m : M A) : IO A :=
  fun w =>
    match m with
    | inl e => (w, inl (Raised e))
    | inr a => (w, inr a)
    end.

Section WithRuntime.
Variable rt : Runtime.

Definition can_write (s : str) : bool := forallb (stdout_writes rt) s.

(** [sys.stdout.write(s)]: all of [s] is written, or nothing is and
    [UnicodeEncodeError] is raised. *)
Definition write (s : str) : IO unit :=
  fun w =>
    if can_write s then
      ({| stdout := stdout w ++ s; session := session w |}, inr tt)
    else (w, inl UnicodeEncodeError).

Definition newline : str := [10].

(** [print(line)] writes the line, then the line end. *)
Definition print (line : str) : IO unit :=
  write line ;;; write newline.

(** [tool_context.state.get(key, default)] *)
Definition state_get (key : str) (default : value) : IO value :=
  fun w => (w, inr (get (session w) key default)).

(** [tool_context.state[key] = v] *)
Definition state_set (key : str) (v : value) : IO unit :=
  fun w => ({| stdout := stdout w; session := <[ key := v ]> (session w) |},
            inr tt).

(** [str(v)], which is what [f"{v}"] puts in. *)
Definition str_of_value (v : value) : str :=
  match v with
  | VNone => py "None"
  | VBool true => py "True"
  | VBool false => py "False"
  | VInt z => decimal z
  | VFloat f => float_repr rt f
  | VStr s => s
  end.

Definition hex_digit (n : N) : codepoint :=
  if n <? 10 then 48 + n else 87 + n.

(** [n] in [width] lower-case hexadecimal digits. *)
Fixpoint hex (width : nat) (n : N) : str :=
  match width with
  | O => []
  | S width' => hex width' (n / 16) ++ [hex_digit (n mod 16)]
  end.

Definition backslash : codepoint := 92.
Definition single_quote : codepoint := 39.
Definition double_quote : codepoint := 34.

(** One code point of a string inside its [repr]. *)
Definition escape (quote c : codepoint) : str :=
  if (c =? quote) || (c =? backslash) then [backslash; c]
  else if c =? 9 then backslash :: py "t"
  else if c =? 10 then backslash :: py "n"
  else if c =? 13 then backslash :: py "r"
  else if (c <? 32) || (c =? 127) then backslash :: py "x" ++ hex 2 c
  else if c <? 127 then [c]
  else if printable rt c then [c]
  else if c <=? 255 then backslash :: py "x" ++ hex 2 c
  else if c <=? 65535 then backslash :: py "u" ++ hex 4 c
  else backslash :: py "U" ++ hex 8 c.

(** [repr(s)]: in single quotes, or in double quotes when [s] holds a
    single quote and no double quote. *)
Definition repr (s : str) : str :=
  let quote :=
    if existsb (N.eqb single_quote) s && negb (existsb (N.eqb double_quote) s)
    then double_quote else single_quote in
  quote :: flat_map (escape quote) s ++ [quote].

(** [str(d)] of a dictionary with the given items, in their order. *)
Fixpoint repr_items (items : list (str * str)) : str :=
  match items with
  | [] => []
  | [(k, v)] => repr k ++ py ": " ++ repr v
  | (k, v) :: rest => repr k ++ py ": " ++ repr v ++ py ", " ++ repr_items rest
  end.

Definition repr_dict (items : list (str * str)) : str :=
  py "{" ++ repr_items items ++ py "}".

Variable u : UnicodeData.


(** Every line, each with its line end, is text standard output can
    write. *)
Definition can_print_all (ls : list str) : bool :=
  forallb (fun line => can_write line && can_write newline) ls.

Definition get_weather_stateful (city : str) : IO (gmap str str) :=
  print (py "--- Tool: get_weather_stateful called for " ++ city
         ++ py " ---") ;;;
  preferred_unit <~
    state_get (py "user_preference_temperature_unit") (VStr (py "Celsius")) ;;
  print (py "--- Tool: Reading state 'user_preference_temperature_unit': "
         ++ str_of_value preferred_unit ++ py " ---") ;;;
  let city_normalized := remove_spaces (lower u city) in
  if contains mock_weather_db city_normalized then
    data <~ lift (getitem mock_weather_db city_normalized) ;;
    let temp_c := temp_c data in
    let condition := condition data in
    temp <~
      lift (if eq_str preferred_unit (py "Fahrenheit") then
              q <- int_truediv (temp_c * 9)%Z 5 ;;
              f <- float_add_int q 32 ;;
              ret (Float f, degree :: py "F")
            else
              ret (Int temp_c, degree :: py "C")) ;;
    let '(temp_value, temp_unit) := temp in
    shown <~ lift (format_0f temp_value) ;;
    let report :=
      py "The weather in " ++ capitalize u city ++ py " is " ++ condition
      ++ py " with a temperature of " ++ shown ++ temp_unit ++ py "." in
    let result := {[ py "status" := py "success"; py "report" := report ]} in
    print (py "--- Tool: Generated report in " ++ str_of_value preferred_unit
           ++ py ". Result: "
           ++ repr_dict [(py "status", py "success"); (py "report", report)]
           ++ py " ---") ;;;
    state_set (py "last_city_checked_stateful") (VStr city) ;;;
    print (py "--- Tool: Updated state 'last_city_checked_stateful': "
           ++ city ++ py " ---") ;;;
    io_ret result
  else
    let error_msg :=
      py "Sorry, I don't have weather information for '" ++ city ++ py "'." in
    print (py "--- Tool: City '" ++ city ++ py "' not found. ---") ;;;
    io_ret {[ py "status" := py "error"; py "error_message" := error_msg ]}.

Definition get_weather (city : str) : IO (gmap str str) :=
  print (py "--- Tool: get_weather called for city: " ++ city
         ++ py " ---") ;;;
  lift (Stateless.get_weather u city).

End WithRuntime.

Definition surrogate (c : codepoint) : bool := (55296 <=? c) && (c <=? 57343).

(** A runtime whose standard output is UTF-8 with the strict error
    handler: it writes every code point but the surrogates. Its
    [printable] is exact on Latin-1 and on CJK ideographs, its
    [float_repr] on the zeros, infinities, NaN and the integral floats
    below [10^16]. *)
Definition utf8_stdout : Runtime :=
  {| stdout_writes c := negb (surrogate c);
     printable c := negb ((c <=? 160) || (c =? 173) || surrogate c);
     float_repr f :=
       match f with
       | S754_nan => py "nan"
       | S754_infinity s => sign s ++ py "inf"
       | S754_zero s => sign s ++ py "0.0"
       | S754_finite s m e => sign s ++ decimal (round_half_even m e) ++ py ".0"
       end |}.


Definition fresh (state : gmap str value) : world :=
  {| stdout := []; session := state |}.

End Traced.

(** ** The lookup table *)

Lemma db_lookup_Some (k : str) (w : weather) :
  mock_weather_db !! k = Some w ->
  (k = py "newyork" /\ w = {| temp_c := 25; condition := py "sunny" |}) \/
  (k = py "london" /\ w = {| temp_c := 15; condition := py "cloudy" |}) \/
  (k = py "tokyo" /\ w = {| temp_c := 18; condition := py "light rain" |}).
Proof.
  unfold mock_weather_db.
  rewrite !lookup_insert_Some, lookup_singleton_Some.
  intuition (subst; auto).
Qed.

Lemma db_lookup_is_Some (k : str) :
  is_Some (mock_weather_db !! k) <-> In k table_keys.
Proof.
  unfold mock_weather_db, table_keys. split.
  - intros [w Hw]. revert Hw.
    rewrite !lookup_insert_Some, lookup_singleton_Some. simpl.
    intuition (subst; auto).
  - simpl. intros [<- | [<- | [<- | []]]]; vm_compute; eauto.
Qed.

Lemma contains_db (k : str) :
  contains mock_weather_db k = true <-> In k table_keys.
Proof.
  unfold contains. rewrite bool_decide_eq_true. apply db_lookup_is_Some.
Qed.

(** ** Arithmetic on the three table entries *)

Lemma celsius_shown (w : weather) :
  in_table w -> format_0f (Int (temp_c w)) = ret (decimal (temp_c w)).
Proof. intros [-> | [-> | ->]]; vm_compute; reflexivity. Qed.

Lemma fahrenheit_shown (w : weather) :
  in_table w ->
  exists f,
    (q <- int_truediv (temp_c w * 9)%Z 5 ;; float_add_int q 32) = ret f /\
    format_0f (Float f)
    = ret (decimal (nearest_integer (fahrenheit_of (temp_c w)))).
Proof.
  intros [-> | [-> | ->]]; eexists; split; vm_compute; reflexivity.
Qed.

Lemma eq_str_true (v : value) (s : str) : eq_str v s = true <-> v = VStr s.
Proof.
  destruct v; simpl; try (split; [discriminate | discriminate]).
  rewrite bool_decide_eq_true. split; [intros ->; reflexivity | congruence].
Qed.

Section ToolFacts.
Variable u : UnicodeData.

Lemma gws_missing (city : str) (state : gmap str value) :
  mock_weather_db !! normalize u city = None ->
  get_weather_stateful u city state
  = ret ({[ py "status" := py "error";
            py "error_message" := error_text city ]}, state).
Proof.
  intros Hk. unfold get_weather_stateful, contains.
  rewrite Hk, bool_decide_eq_false_2; [reflexivity |].
  intros [? ?]; discriminate.
Qed.

Lemma gws_found (city : str) (state : gmap str value) (w : weather) :
  mock_weather_db !! normalize u city = Some w ->
  get_weather_stateful u city state
  = ret ({[ py "status" := py "success";
            py "report" :=
              report_text (capitalize u city) (condition w)
                (if eq_str (get state unit_key (VStr (py "Celsius")))
                      (py "Fahrenheit")
                 then fahrenheit_text (temp_c w)
                 else celsius_text (temp_c w)) ]},
          <[ last_city_key := VStr city ]> state).
Proof.
  intros Hk. assert (Hw : in_table w).
  { apply db_lookup_Some in Hk. unfold in_table. tauto. }
  unfold get_weather_stateful, contains, getitem.
  rewrite Hk, bool_decide_eq_true_2 by eauto.
  fold unit_key. cbn [bind ret].
  destruct (eq_str _ _).
  - destruct (fahrenheit_shown w Hw) as (f & Hf & Hs).
    unfold bind in Hf |- *. unfold ret in Hf.
    destruct (int_truediv _ _) as [e | q]; [discriminate |].
    rewrite Hf. unfold ret at 1. cbv beta iota. rewrite Hs.
    unfold ret, report_text, fahrenheit_text.
    rewrite <- !app_assoc. reflexivity.
  - cbn [bind ret]. rewrite (celsius_shown w Hw). cbn [bind ret].
    unfold report_text, celsius_text.
    rewrite <- !app_assoc. reflexivity.
Qed.
End ToolFacts.

(** ** Case operations on ASCII text *)

Section CaseFacts.
Variable u : UnicodeData.

Lemma lower_from_ascii (before s : str) :
  all_ascii s = true -> lower_from u before s = List.map ascii_lower s.
Proof.
  revert before. induction s as [| c rest IH]; intros before Hs.
  - reflexivity.
  - simpl in Hs. apply andb_true_iff in Hs as [Hc Hrest].
    simpl. rewrite (IH _ Hrest). unfold lower_ucs4, to_lower_full.
    rewrite Hc. unfold is_ascii in Hc. apply N.ltb_lt in Hc.
    destruct (N.eqb_spec c capital_sigma) as [-> | _].
    + unfold capital_sigma in Hc. lia.
    + reflexivity.
Qed.

Lemma lower_ascii (s : str) :
  all_ascii s = true -> lower u s = List.map ascii_lower s.
Proof. apply lower_from_ascii. Qed.

Lemma capitalize_ascii (c : codepoint) (rest : str) :
  all_ascii (c :: rest) = true ->
  capitalize u (c :: rest) = ascii_upper c :: List.map ascii_lower rest.
Proof.
  intros Hs. simpl in Hs. apply andb_true_iff in Hs as [Hc Hrest].
  simpl. unfold to_title_full. rewrite Hc, (lower_from_ascii _ _ Hrest).
  reflexivity.
Qed.

Lemma normalize_london : normalize u (py "London") = py "london".
Proof. vm_compute. reflexivity. Qed.

Lemma normalize_tokyo : normalize u (py "Tokyo") = py "tokyo".
Proof. vm_compute. reflexivity. Qed.

Lemma normalize_new_york : normalize u (py "New York") = py "newyork".
Proof. vm_compute. reflexivity. Qed.

Lemma normalize_newyork : normalize u (py "NewYork") = py "newyork".
Proof. vm_compute. reflexivity. Qed.
End CaseFacts.

Lemma unit_key_ne_last_city_key : last_city_key <> unit_key.
Proof. discriminate. Qed.

Lemma get_insert_last_city (state : gmap str value) (v d : value) :
  get (<[ last_city_key := v ]> state) unit_key d = get state unit_key d.
Proof.
  unfold get. rewrite lookup_insert_ne by apply unit_key_ne_last_city_key.
  reflexivity.
Qed.

Lemma get_Some (state : gmap str value) (k : str) (v d : value) :
  state !! k = Some v -> get state k d = v.
Proof. unfold get. intros ->. reflexivity. Qed.

Lemma get_None (state : gmap str value) (k : str) (d : value) :
  state !! k = None -> get state k d = d.
Proof. unfold get. intros ->. reflexivity. Qed.

Lemma eq_str_false (v : value) (s : str) : v <> VStr s -> eq_str v s = false.
Proof.
  intros Hv. destruct (eq_str v s) eqn:E; [| reflexivity].
  apply eq_str_true in E. contradiction.
Qed.

(** A preference that is not the string "Fahrenheit" gives what the
    preference "Celsius" gives. *)
Lemma gws_as_celsius (u : UnicodeData) (city : str) (state : gmap str value) :
  eq_str (get state unit_key (VStr (py "Celsius"))) (py "Fahrenheit") = false ->
  exists result state',
    get_weather_stateful u city state = ret (result, state') /\
    get_weather_stateful u city (<[ unit_key := VStr (py "Celsius") ]> state)
    = ret (result, <[ unit_key := VStr (py "Celsius") ]> state').
Proof.
  intros Hpref.
  assert (Hc : eq_str (get (<[ unit_key := VStr (py "Celsius") ]> state)
                         unit_key (VStr (py "Celsius"))) (py "Fahrenheit")
               = false).
  { rewrite (get_Some _ _ (VStr (py "Celsius"))) by apply lookup_insert_eq.
    reflexivity. }
  destruct (mock_weather_db !! normalize u city) as [w |] eqn:Hk.
  - do 2 eexists. rewrite !(gws_found u city _ w Hk), Hpref, Hc.
    split; [reflexivity |].
    rewrite (insert_insert_ne _ last_city_key unit_key)
      by apply unit_key_ne_last_city_key.
    reflexivity.
  - do 2 eexists. rewrite !(gws_missing u city _ Hk). split; reflexivity.
Qed.

(** ** Success, error and the session state *)

(** C1: the call succeeds exactly when the normalized city (lower-cased,
    spaces removed) is "newyork", "london" or "tokyo"; otherwise it returns
    an error result and the state after the call is the state before. *)
Theorem C1_success_iff_key_in_table
    (u : UnicodeData) (city : str) (state : gmap str value) :
  let out := get_weather_stateful u city state in
  (field "status" out = Some (py "success")
   <-> In (remove_spaces (lower u city)) table_keys) /\
  (~ In (remove_spaces (lower u city)) table_keys ->
   field "status" out = Some (py "error") /\ state_after out = Some state).
Proof.
  fold (normalize u city). intros out. subst out.
  destruct (mock_weather_db !! normalize u city) as [w |] eqn:Hk.
  - assert (Hin : In (normalize u city) table_keys).
    { apply db_lookup_is_Some. eauto. }
    rewrite (gws_found u city state w Hk). split.
    + split; [intros _; exact Hin | intros _; reflexivity].
    + intros Hout. contradiction.
  - assert (Hout : ~ In (normalize u city) table_keys).
    { rewrite <- db_lookup_is_Some, Hk. intros [? ?]; discriminate. }
    rewrite (gws_missing u city state Hk). split.
    + split; [discriminate | intros Hin; contradiction].
    + intros _. split; reflexivity.
Qed.

Lemma C1_witness :
  ~ In (remove_spaces (lower uncased (py "Paris"))) table_keys /\
  field "status" (get_weather_stateful uncased (py "Paris") fahrenheit_state)
  = Some (py "error") /\
  state_after (get_weather_stateful uncased (py "Paris") fahrenheit_state)
  = Some fahrenheit_state.
Proof.
  assert (H : ~ In (remove_spaces (lower uncased (py "Paris"))) table_keys).
  { vm_compute. intros [E | [E | [E | []]]]; discriminate E. }
  split; [exact H |].
  exact (proj2 (C1_success_iff_key_in_table uncased (py "Paris")
                  fahrenheit_state) H).
Defined.

(** C5: the returned record has status "success" together with a report,
    or status "error" together with the error message built around the
    city exactly as it was given. *)
Theorem C5_result_shape
    (u : UnicodeData) (city : str) (state : gmap str value) :
  let out := get_weather_stateful u city state in
  (field "status" out = Some (py "success") /\ is_Some (field "report" out))
  \/
  (field "status" out = Some (py "error") /\
   field "error_message" out
   = Some (py "Sorry, I don't have weather information for '"
           ++ city ++ py "'.")).
Proof.
  intros out. subst out.
  destruct (mock_weather_db !! normalize u city) as [w |] eqn:Hk.
  - left. rewrite (gws_found u city state w Hk). split; [reflexivity |].
    eexists. reflexivity.
  - right. rewrite (gws_missing u city state Hk). split; reflexivity.
Qed.

(** C6: when the call succeeds, the state after it is the state before
    with the city, as given, stored under "last_city_checked_stateful";
    every other key keeps its value. *)
Theorem C6_success_writes_last_city_only
    (u : UnicodeData) (city : str) (state : gmap str value) :
  field "status" (get_weather_stateful u city state) = Some (py "success") ->
  exists state',
    state_after (get_weather_stateful u city state) = Some state' /\
    state' = <[ py "last_city_checked_stateful" := VStr city ]> state /\
    forall k : str,
      k <> py "last_city_checked_stateful" -> state' !! k = state !! k.
Proof.
  destruct (mock_weather_db !! normalize u city) as [w |] eqn:Hk.
  - rewrite (gws_found u city state w Hk). intros _.
    eexists. split; [reflexivity |]. split; [reflexivity |].
    intros k Hne. apply lookup_insert_ne. intros E. apply Hne. symmetry. exact E.
  - rewrite (gws_missing u city state Hk). discriminate.
Qed.

Lemma C6_witness :
  field "status" (get_weather_stateful uncased (py "London") fahrenheit_state)
  = Some (py "success") /\
  exists state',
    state_after (get_weather_stateful uncased (py "London") fahrenheit_state)
    = Some state' /\
    state' = <[ py "last_city_checked_stateful" := VStr (py "London") ]>
               fahrenheit_state /\
    forall k : str,
      k <> py "last_city_checked_stateful" ->
      state' !! k = fahrenheit_state !! k.
Proof.
  split; [vm_compute; reflexivity |].
  apply (C6_success_writes_last_city_only uncased (py "London")
           fahrenheit_state).
  vm_compute. reflexivity.
Defined.

(** *** The trace output *)

Module TracedFacts.
Import Traced.

Lemma io_bind_ret {A B} (m : IO A) (k : A -> IO B) (w w' : world) (a : A) :
  m w = (w', inr a) -> io_bind m k w = k a w'.
Proof. unfold io_bind. intros ->. reflexivity. Qed.

Lemma io_bind_raise {A B} (m : IO A) (k : A -> IO B) (w w' : world)
    (e : exception) :
  m w = (w', inl e) -> io_bind m k w = (w', inl e).
Proof. unfold io_bind. intros ->. reflexivity. Qed.

(** A print writes the line and its end, or raises with the session as it
    was. *)
Lemma print_spec (rt : Runtime) (line : str) (w : world) :
  (can_write rt line && can_write rt newline = true /\
   print rt line w
   = ({| stdout := stdout w ++ line ++ newline; session := session w |},
      inr tt))
  \/
  (can_write rt line && can_write rt newline = false /\
   exists w',
     print rt line w = (w', inl UnicodeEncodeError) /\
     session w' = session w).
Proof.
  unfold print, io_bind, write.
  destruct (can_write rt line), (can_write rt newline);
    cbn [andb stdout session].
  - left. split; [reflexivity |]. rewrite <- app_assoc. reflexivity.
  - right. split; [reflexivity |]. eexists. split; reflexivity.
  - right. split; [reflexivity |]. eexists. split; reflexivity.
  - right. split; [reflexivity |]. eexists. split; reflexivity.
Qed.


End TracedFacts.






(** The trace of the first call of the recorded sample run, as the driver
    script shows it. *)
Example sample_trace :
  Traced.stdout
    (fst (Traced.get_weather_stateful Traced.utf8_stdout uncased
            (py "London") (Traced.fresh ∅)))
  = py "--- Tool: get_weather_stateful called for London ---"
    ++ Traced.newline
    ++ py "--- Tool: Reading state 'user_preference_temperature_unit': Celsius ---"
    ++ Traced.newline
    ++ py "--- Tool: Generated report in Celsius. Result: {'status': 'success', 'report': 'The weather in London is cloudy with a temperature of 15"
    ++ degree
       :: py "C.'} ---"
    ++ Traced.newline
    ++ py "--- Tool: Updated state 'last_city_checked_stateful': London ---"
    ++ Traced.newline.
Proof. vm_compute. reflexivity. Qed.

(** The empty string is an unmatched key like any other. *)
Example empty_city (u : UnicodeData) (state : gmap str value) :
  get_weather_stateful u [] state
  = ret ({[ py "status" := py "error";
            py "error_message" :=
              py "Sorry, I don't have weather information for ''." ]},
         state).
Proof. apply (gws_missing u [] state). reflexivity. Qed.

(** ** The report *)

Example capitalize_new_york (u : UnicodeData) :
  capitalize u (py "New York") = py "New york".
Proof. vm_compute. reflexivity. Qed.

Example capitalize_london_upper (u : UnicodeData) :
  capitalize u (py "LONDON") = py "London".
Proof. vm_compute. reflexivity. Qed.

(** C2, as stated, fails: for "New York" the report reads "New york", not
    the input with only its first character upper-cased. *)
Lemma C2_counterexample :
  field "report" (get_weather_stateful uncased (py "New York") ∅)
  = Some (py "The weather in New york is sunny with a temperature of 25"
          ++ degree :: py "C.") /\
  field "report" (get_weather_stateful uncased (py "New York") ∅)
  <> Some (report_text (first_upper_rest_unchanged (py "New York"))
             (py "sunny") (py "25" ++ degree :: py "C")).
Proof. split; [vm_compute; reflexivity | vm_compute; discriminate]. Qed.

(** C2, amended: for a city found in the table the report is
    "The weather in <Capitalized city> is <condition> with a temperature of
    <value><unit>." where <Capitalized city> is the input with its first
    character title-cased and every later character lower-cased, exactly as
    [lower] lower-cases it; on ASCII text that is the first character
    upper-cased and the others lower-cased. *)
Theorem C2_report_capitalizes_first_and_lowers_rest
    (u : UnicodeData) (city : str) (state : gmap str value) (w : weather) :
  mock_weather_db !! remove_spaces (lower u city) = Some w ->
  (exists temperature,
     field "report" (get_weather_stateful u city state)
     = Some (py "The weather in " ++ capitalize u city ++ py " is "
             ++ condition w ++ py " with a temperature of "
             ++ temperature ++ py ".") /\
     (temperature = decimal (temp_c w) ++ degree :: py "C" \/
      temperature
      = decimal (nearest_integer (fahrenheit_of (temp_c w)))
        ++ degree :: py "F")) /\
  (exists c rest tail,
     city = c :: rest /\
     capitalize u city = to_title_full u c ++ tail /\
     lower u city = lower_ucs4 u [] c rest ++ tail) /\
  (all_ascii city = true ->
   exists c rest,
     city = c :: rest /\
     capitalize u city = ascii_upper c :: List.map ascii_lower rest).
Proof.
  fold (normalize u city). intros Hk.
  assert (Hcity : exists c rest, city = c :: rest).
  { destruct city as [| c rest]; [discriminate Hk | eauto]. }
  destruct Hcity as (c & rest & ->). split; [| split].
  - rewrite (gws_found u _ state w Hk). eexists. split; [reflexivity |].
    destruct (eq_str _ _); [right | left]; reflexivity.
  - exists c, rest, (lower_from u [c] rest). repeat split; reflexivity.
  - intros Hascii. exists c, rest. split; [reflexivity |].
    apply capitalize_ascii, Hascii.
Qed.

Lemma C2_witness :
  mock_weather_db !! remove_spaces (lower uncased (py "LONDON"))
  = Some {| temp_c := 15; condition := py "cloudy" |} /\
  exists c rest,
    py "LONDON" = c :: rest /\
    capitalize uncased (py "LONDON")
    = ascii_upper c :: List.map ascii_lower rest.
Proof.
  assert (H : mock_weather_db !! remove_spaces (lower uncased (py "LONDON"))
              = Some {| temp_c := 15; condition := py "cloudy" |}).
  { vm_compute. reflexivity. }
  split; [exact H |].
  apply (proj2 (proj2 (C2_report_capitalizes_first_and_lowers_rest
                         uncased (py "LONDON") ∅ _ H))).
  vm_compute. reflexivity.
Defined.

(** C3: for a city in the table, with the preference "Fahrenheit" the
    report shows temp_c * 9/5 + 32 rounded to the nearest integer, which is
    less than a half away, followed by "°F"; otherwise it shows temp_c
    followed by "°C". With the preference "Fahrenheit", "Tokyo" gives
    64°F. *)
Theorem C3_unit_conversion
    (u : UnicodeData) (city : str) (state : gmap str value) (w : weather) :
  mock_weather_db !! normalize u city = Some w ->
  (state !! py "user_preference_temperature_unit"
   = Some (VStr (py "Fahrenheit")) ->
   field "report" (get_weather_stateful u city state)
   = Some (report_text (capitalize u city) (condition w)
             (decimal (nearest_integer (fahrenheit_of (temp_c w)))
              ++ degree :: py "F")) /\
   (Qabs (inject_Z (nearest_integer (fahrenheit_of (temp_c w)))
          - fahrenheit_of (temp_c w)) < 1 # 2)%Q) /\
  (state !! py "user_preference_temperature_unit"
   <> Some (VStr (py "Fahrenheit")) ->
   field "report" (get_weather_stateful u city state)
   = Some (report_text (capitalize u city) (condition w)
             (decimal (temp_c w) ++ degree :: py "C"))) /\
  (state !! py "user_preference_temperature_unit"
   = Some (VStr (py "Fahrenheit")) ->
   field "report" (get_weather_stateful u (py "Tokyo") state)
   = Some (py "The weather in Tokyo is light rain with a temperature of 64"
           ++ degree :: py "F.")).
Proof.
  fold unit_key. intros Hk. split; [| split].
  - intros Hpref. rewrite (gws_found u city state w Hk).
    rewrite (get_Some _ _ _ _ Hpref). split; [reflexivity |].
    apply db_lookup_Some in Hk.
    destruct Hk as [[_ ->] | [[_ ->] | [_ ->]]]; vm_compute; reflexivity.
  - intros Hpref. rewrite (gws_found u city state w Hk).
    rewrite eq_str_false; [reflexivity |].
    unfold get. destruct (state !! unit_key) as [v |] eqn:Hv.
    + intros ->. contradiction.
    + discriminate.
  - intros Hpref.
    rewrite (gws_found u (py "Tokyo") state
               {| temp_c := 18; condition := py "light rain" |})
      by (rewrite normalize_tokyo; reflexivity).
    rewrite (get_Some _ _ _ _ Hpref). vm_compute. reflexivity.
Qed.

Lemma C3_witness :
  mock_weather_db !! normalize uncased (py "Tokyo")
  = Some {| temp_c := 18; condition := py "light rain" |} /\
  fahrenheit_state !! py "user_preference_temperature_unit"
  = Some (VStr (py "Fahrenheit")) /\
  field "report" (get_weather_stateful uncased (py "Tokyo") fahrenheit_state)
  = Some (py "The weather in Tokyo is light rain with a temperature of 64"
          ++ degree :: py "F.").
Proof.
  assert (Hk : mock_weather_db !! normalize uncased (py "Tokyo")
               = Some {| temp_c := 18; condition := py "light rain" |}).
  { vm_compute. reflexivity. }
  assert (Hp : fahrenheit_state !! py "user_preference_temperature_unit"
               = Some (VStr (py "Fahrenheit"))).
  { vm_compute. reflexivity. }
  split; [exact Hk |]. split; [exact Hp |].
  exact (proj2 (proj2 (C3_unit_conversion uncased (py "Tokyo")
                         fahrenheit_state _ Hk)) Hp).
Defined.

(** ** The unit preference *)

(** C4: when the state has no "user_preference_temperature_unit" key the
    call returns what it returns with that key set to "Celsius", and
    changes the state in the same way; "New York" then reports 25°C. *)
Theorem C4_default_unit_is_celsius
    (u : UnicodeData) (city : str) (state : gmap str value) :
  state !! py "user_preference_temperature_unit" = None ->
  (exists result state',
     get_weather_stateful u city state = ret (result, state') /\
     get_weather_stateful u city
       (<[ py "user_preference_temperature_unit" := VStr (py "Celsius") ]>
          state)
     = ret (result,
            <[ py "user_preference_temperature_unit" := VStr (py "Celsius") ]>
              state')) /\
  field "report" (get_weather_stateful u (py "New York") state)
  = Some (py "The weather in New york is sunny with a temperature of 25"
          ++ degree :: py "C.").
Proof.
  fold unit_key. intros Hpref. split.
  - apply gws_as_celsius. rewrite (get_None _ _ _ Hpref). reflexivity.
  - rewrite (gws_found u (py "New York") state
               {| temp_c := 25; condition := py "sunny" |})
      by (rewrite normalize_new_york; reflexivity).
    rewrite (get_None _ _ _ Hpref). vm_compute. reflexivity.
Qed.

Lemma C4_witness :
  (∅ : gmap str value) !! py "user_preference_temperature_unit" = None /\
  field "report" (get_weather_stateful uncased (py "New York") ∅)
  = Some (py "The weather in New york is sunny with a temperature of 25"
          ++ degree :: py "C.").
Proof.
  assert (H : (∅ : gmap str value) !! py "user_preference_temperature_unit"
              = None).
  { reflexivity. }
  split; [exact H |].
  exact (proj2 (C4_default_unit_is_celsius uncased (py "New York") ∅ H)).
Defined.

(** C10: a preference that is anything but the string "Fahrenheit" is
    neither checked nor rejected: the call returns what it returns with
    the preference "Celsius", and for a city in the table the report shows
    temp_c followed by "°C". *)
Theorem C10_preference_match_is_exact
    (u : UnicodeData) (city : str) (state : gmap str value) (v : value) :
  state !! py "user_preference_temperature_unit" = Some v ->
  v <> VStr (py "Fahrenheit") ->
  (exists result state',
     get_weather_stateful u city state = ret (result, state') /\
     get_weather_stateful u city
       (<[ py "user_preference_temperature_unit" := VStr (py "Celsius") ]>
          state)
     = ret (result,
            <[ py "user_preference_temperature_unit" := VStr (py "Celsius") ]>
              state')) /\
  (forall w : weather,
     mock_weather_db !! normalize u city = Some w ->
     get_weather_stateful u city state
     = ret ({[ py "status" := py "success";
               py "report" :=
                 report_text (capitalize u city) (condition w)
                   (decimal (temp_c w) ++ degree :: py "C") ]},
            <[ py "last_city_checked_stateful" := VStr city ]> state)).
Proof.
  fold unit_key. intros Hpref Hv.
  assert (Hc : eq_str (get state unit_key (VStr (py "Celsius")))
                 (py "Fahrenheit") = false).
  { rewrite (get_Some _ _ _ _ Hpref). apply eq_str_false, Hv. }
  split.
  - apply gws_as_celsius, Hc.
  - intros w Hk. rewrite (gws_found u city state w Hk), Hc. reflexivity.
Qed.

Lemma C10_witness :
  lowercase_fahrenheit_state !! py "user_preference_temperature_unit"
  = Some (VStr (py "fahrenheit")) /\
  VStr (py "fahrenheit") <> VStr (py "Fahrenheit") /\
  get_weather_stateful uncased (py "London") lowercase_fahrenheit_state
  = ret ({[ py "status" := py "success";
            py "report" :=
              report_text (capitalize uncased (py "London")) (py "cloudy")
                (decimal 15 ++ degree :: py "C") ]},
         <[ py "last_city_checked_stateful" := VStr (py "London") ]>
           lowercase_fahrenheit_state).
Proof.
  assert (Hp : lowercase_fahrenheit_state
               !! py "user_preference_temperature_unit"
               = Some (VStr (py "fahrenheit"))).
  { vm_compute. reflexivity. }
  assert (Hv : VStr (py "fahrenheit") <> VStr (py "Fahrenheit")).
  { vm_compute. discriminate. }
  split; [exact Hp |]. split; [exact Hv |].
  apply (proj2 (C10_preference_match_is_exact uncased (py "London")
                  lowercase_fahrenheit_state _ Hp Hv)
           {| temp_c := 15; condition := py "cloudy" |}).
  vm_compute. reflexivity.
Defined.

(** ** Repeated and colliding lookups *)

(** C7: two calls in a row for "London" return the same result, report
    included; the state after the first call holds "London" under
    "last_city_checked_stateful" and the second call leaves that state as
    it is. *)
Theorem C7_london_twice (u : UnicodeData) (state : gmap str value) :
  exists result state1 report,
    get_weather_stateful u (py "London") state = ret (result, state1) /\
    get_weather_stateful u (py "London") state1 = ret (result, state1) /\
    result !! py "report" = Some report /\
    state1 !! py "last_city_checked_stateful" = Some (VStr (py "London")).
Proof.
  assert (Hk : mock_weather_db !! normalize u (py "London")
               = Some {| temp_c := 15; condition := py "cloudy" |}).
  { rewrite normalize_london. reflexivity. }
  do 3 eexists. rewrite !(gws_found u (py "London") _ _ Hk).
  split; [reflexivity |]. split; [| split].
  - rewrite get_insert_last_city, insert_insert_eq. reflexivity.
  - reflexivity.
  - apply lookup_insert_eq.
Qed.

(** "New York" and "NewYork" collide on "newyork" and both succeed. *)
Lemma new_york_spellings_succeed (u : UnicodeData) (state : gmap str value) :
  field "status" (get_weather_stateful u (py "New York") state)
  = Some (py "success") /\
  field "status" (get_weather_stateful u (py "NewYork") state)
  = Some (py "success").
Proof.
  rewrite (gws_found u (py "New York") state
             {| temp_c := 25; condition := py "sunny" |})
    by (rewrite normalize_new_york; reflexivity).
  rewrite (gws_found u (py "NewYork") state
             {| temp_c := 25; condition := py "sunny" |})
    by (rewrite normalize_newyork; reflexivity).
  split; reflexivity.
Qed.

(** C8: two cities with the same normalized form (lower-cased, spaces
    removed), on the same state, either both succeed or both fail; "New
    York" and "NewYork" both succeed. *)
Theorem C8_status_depends_on_normalized_key
    (u : UnicodeData) (city1 city2 : str) (state : gmap str value) :
  remove_spaces (lower u city1) = remove_spaces (lower u city2) ->
  ((field "status" (get_weather_stateful u city1 state) = Some (py "success") /\
    field "status" (get_weather_stateful u city2 state) = Some (py "success"))
   \/
   (field "status" (get_weather_stateful u city1 state) = Some (py "error") /\
    field "status" (get_weather_stateful u city2 state) = Some (py "error")))
  /\
  (field "status" (get_weather_stateful u (py "New York") state)
   = Some (py "success") /\
   field "status" (get_weather_stateful u (py "NewYork") state)
   = Some (py "success")).
Proof.
  fold (normalize u city1) (normalize u city2). intros Hsame.
  split; [| apply new_york_spellings_succeed].
  destruct (mock_weather_db !! normalize u city1) as [w |] eqn:Hk1.
  - assert (Hk2 := Hk1). rewrite Hsame in Hk2. left.
    rewrite (gws_found u city1 state w Hk1), (gws_found u city2 state w Hk2).
    split; reflexivity.
  - assert (Hk2 := Hk1). rewrite Hsame in Hk2. right.
    rewrite (gws_missing u city1 state Hk1), (gws_missing u city2 state Hk2).
    split; reflexivity.
Qed.

Lemma C8_witness :
  remove_spaces (lower uncased (py "New York"))
  = remove_spaces (lower uncased (py "NewYork")) /\
  field "status" (get_weather_stateful uncased (py "New York") ∅)
  = Some (py "success") /\
  field "status" (get_weather_stateful uncased (py "NewYork") ∅)
  = Some (py "success").
Proof.
  assert (H : remove_spaces (lower uncased (py "New York"))
              = remove_spaces (lower uncased (py "NewYork"))).
  { vm_compute. reflexivity. }
  split; [exact H |].
  exact (proj2 (C8_status_depends_on_normalized_key uncased (py "New York")
                  (py "NewYork") ∅ H)).
Defined.

(** ** The sample run recorded with the driver script *)

(** "London", then "Paris", then "New York" on a fresh session, as in the
    output kept at the end of [run_my_agent_manually.py]. *)
Example sample_run (u : UnicodeData) :
  let s1 : gmap str value := {[ last_city_key := VStr (py "London") ]} in
  let s3 : gmap str value := {[ last_city_key := VStr (py "New York") ]} in
  get_weather_stateful u (py "London") ∅
  = ret ({[ py "status" := py "success";
            py "report" :=
              py "The weather in London is cloudy with a temperature of 15"
              ++ degree :: py "C." ]}, s1) /\
  get_weather_stateful u (py "Paris") s1
  = ret ({[ py "status" := py "error";
            py "error_message" :=
              py "Sorry, I don't have weather information for 'Paris'." ]},
         s1) /\
  get_weather_stateful u (py "New York") s1
  = ret ({[ py "status" := py "success";
            py "report" :=
              py "The weather in New york is sunny with a temperature of 25"
              ++ degree :: py "C." ]}, s3).
Proof. repeat split; vm_compute; reflexivity. Qed.

(** ** More about the state-aware tool *)

(** What a call returns depends on the state only through the unit
    preference. *)
Lemma gws_result_same_preference
    (u : UnicodeData) (city : str) (state1 state2 : gmap str value) :
  state1 !! unit_key = state2 !! unit_key ->
  result_of (get_weather_stateful u city state1)
  = result_of (get_weather_stateful u city state2).
Proof.
  intros Hpref.
  assert (Hget : get state1 unit_key (VStr (py "Celsius"))
                 = get state2 unit_key (VStr (py "Celsius"))).
  { unfold get. rewrite Hpref. reflexivity. }
  destruct (mock_weather_db !! normalize u city) as [w |] eqn:Hk.
  - rewrite !(gws_found u city _ w Hk), Hget. reflexivity.
  - rewrite !(gws_missing u city _ Hk). reflexivity.
Qed.

Lemma found_true (u : UnicodeData) (city : str) :
  found u city = true ->
  exists w, mock_weather_db !! normalize u city = Some w.
Proof.
  unfold found, contains. rewrite bool_decide_eq_true. intros [w Hw]. eauto.
Qed.

Lemma found_false (u : UnicodeData) (city : str) :
  found u city = false -> mock_weather_db !! normalize u city = None.
Proof.
  unfold found, contains. rewrite bool_decide_eq_false.
  destruct (mock_weather_db !! normalize u city); [| reflexivity].
  intros Hno. destruct Hno. eauto.
Qed.

(** X1: any call made a second time returns the same result and leaves the
    state as the first call left it. *)
Theorem X1_repeated_call_changes_nothing
    (u : UnicodeData) (city : str) (state : gmap str value) :
  exists result state1,
    get_weather_stateful u city state = ret (result, state1) /\
    get_weather_stateful u city state1 = ret (result, state1).
Proof.
  destruct (mock_weather_db !! normalize u city) as [w |] eqn:Hk.
  - do 2 eexists. rewrite !(gws_found u city _ w Hk).
    split; [reflexivity |].
    rewrite get_insert_last_city, insert_insert_eq. reflexivity.
  - do 2 eexists. rewrite !(gws_missing u city _ Hk). split; reflexivity.
Qed.

(** X2: a run of calls on one session returns, for each city, what a single
    call on the starting state returns, and leaves the starting state with
    the last city that was found stored under "last_city_checked_stateful"
    (the starting state itself when none was found). *)
Theorem X2_calls_in_sequence
    (u : UnicodeData) (cities : list str) (state : gmap str value) :
  exists results state',
    calls u cities state = ret (results, state') /\
    List.map Some results
    = List.map (fun city => result_of (get_weather_stateful u city state))
        cities /\
    state' = match last (List.filter (found u) cities) with
             | Some city => <[ py "last_city_checked_stateful" := VStr city ]>
                              state
             | None => state
             end.
Proof.
  fold last_city_key. revert state.
  induction cities as [| city rest IH]; intros state.
  - exists [], state. repeat split; reflexivity.
  - simpl calls. simpl List.filter. simpl List.map.
    destruct (found u city) eqn:Hf.
    + apply found_true in Hf as [w Hk].
      rewrite (gws_found u city state w Hk). cbn [bind ret fst snd].
      destruct (IH (<[ last_city_key := VStr city ]> state))
        as (results & state' & Hcalls & Hres & Hstate).
      rewrite Hcalls. cbn [bind ret fst snd].
      do 2 eexists. split; [reflexivity |]. split.
      * simpl. f_equal. rewrite Hres. apply map_ext. intros c.
        apply gws_result_same_preference.
        apply lookup_insert_ne, unit_key_ne_last_city_key.
      * rewrite Hstate, last_cons.
        destruct (last (List.filter (found u) rest)); [| reflexivity].
        apply insert_insert_eq.
    + apply found_false in Hf.
      rewrite (gws_missing u city state Hf). cbn [bind ret fst snd].
      destruct (IH state) as (results & state' & Hcalls & Hres & Hstate).
      rewrite Hcalls. cbn [bind ret fst snd].
      do 2 eexists. split; [reflexivity |]. split.
      * simpl. f_equal. exact Hres.
      * exact Hstate.
Qed.

(** X3: the returned dictionary has exactly two keys: "status" and "report"
    when the status is "success", "status" and "error_message" when it is
    "error". *)
Theorem X3_result_has_two_fields
    (u : UnicodeData) (city : str) (state : gmap str value) :
  exists result state',
    get_weather_stateful u city state = ret (result, state') /\
    ((result !! py "status" = Some (py "success") /\
      dom result = {[ py "status"; py "report" ]})
     \/
     (result !! py "status" = Some (py "error") /\
      dom result = {[ py "status"; py "error_message" ]})).
Proof.
  destruct (mock_weather_db !! normalize u city) as [w |] eqn:Hk.
  - do 2 eexists. rewrite (gws_found u city state w Hk).
    split; [reflexivity |]. left. split; [reflexivity |].
    rewrite dom_insert_L, dom_singleton_L. reflexivity.
  - do 2 eexists. rewrite (gws_missing u city state Hk).
    split; [reflexivity |]. right. split; [reflexivity |].
    rewrite dom_insert_L, dom_singleton_L. reflexivity.
Qed.

(** ** Letter case and spaces in ASCII city names *)

Ltac split_ranges :=
  unfold is_ascii, ascii_lower, ascii_upper, space;
  repeat (match goal with
          | |- context [N.leb ?a ?b] => destruct (N.leb_spec a b)
          | |- context [N.ltb ?a ?b] => destruct (N.ltb_spec a b)
          | |- context [N.eqb ?a ?b] => destruct (N.eqb_spec a b)
          end; cbn [andb] in *);
  try reflexivity; try lia.

Lemma ascii_lower_ascii (c : codepoint) :
  is_ascii c = true -> is_ascii (ascii_lower c) = true.
Proof. split_ranges; discriminate. Qed.

Lemma ascii_lower_idem (c : codepoint) :
  ascii_lower (ascii_lower c) = ascii_lower c.
Proof. split_ranges. Qed.

Lemma ascii_upper_lower (c : codepoint) :
  ascii_upper (ascii_lower c) = ascii_upper c.
Proof. split_ranges. Qed.

Lemma ascii_lower_space (c : codepoint) :
  (ascii_lower c =? space) = (c =? space).
Proof. split_ranges. Qed.

Lemma all_ascii_app (s1 s2 : str) :
  all_ascii (s1 ++ s2) = all_ascii s1 && all_ascii s2.
Proof. apply forallb_app. Qed.

Lemma all_ascii_lower (s : str) :
  all_ascii s = true -> all_ascii (List.map ascii_lower s) = true.
Proof.
  induction s as [| c rest IH]; [reflexivity |]. simpl.
  rewrite !andb_true_iff. intros [Hc Hrest].
  split; [apply ascii_lower_ascii, Hc | apply IH, Hrest].
Qed.

Lemma all_ascii_remove_spaces (s : str) :
  all_ascii s = true -> all_ascii (remove_spaces s) = true.
Proof.
  induction s as [| c rest IH]; [reflexivity |]. simpl.
  rewrite andb_true_iff. intros [Hc Hrest].
  destruct (c =? space); simpl; [apply IH, Hrest |].
  rewrite Hc. apply IH, Hrest.
Qed.

Lemma remove_spaces_lower (s : str) :
  remove_spaces (List.map ascii_lower s)
  = List.map ascii_lower (remove_spaces s).
Proof.
  induction s as [| c rest IH]; [reflexivity |]. simpl.
  rewrite ascii_lower_space. destruct (c =? space); simpl; rewrite IH;
    reflexivity.
Qed.

Lemma remove_spaces_idem (s : str) :
  remove_spaces (remove_spaces s) = remove_spaces s.
Proof.
  induction s as [| c rest IH]; [reflexivity |]. simpl.
  destruct (c =? space) eqn:E; simpl; [exact IH |].
  rewrite E. simpl. rewrite IH. reflexivity.
Qed.

Lemma remove_spaces_app (s1 s2 : str) :
  remove_spaces (s1 ++ s2) = remove_spaces s1 ++ remove_spaces s2.
Proof. apply List.filter_app. Qed.

Lemma normalize_ascii (u : UnicodeData) (s : str) :
  all_ascii s = true ->
  normalize u s = remove_spaces (List.map ascii_lower s).
Proof. intros Hs. unfold normalize. rewrite (lower_ascii u s Hs). reflexivity. Qed.

Lemma capitalize_ascii_by_lower (u : UnicodeData) (s : str) :
  all_ascii s = true ->
  capitalize u s
  = match List.map ascii_lower s with
    | [] => []
    | c :: rest => ascii_upper c :: rest
    end.
Proof.
  destruct s as [| c rest]; [reflexivity |]. intros Hs.
  rewrite (capitalize_ascii u c rest Hs). simpl.
  rewrite ascii_upper_lower. reflexivity.
Qed.

(** X4: two ASCII spellings of a city in the table that differ only in letter
    case get the same result, report included: the casing of the input
    does not show. *)
Theorem X4_letter_case_does_not_show
    (u : UnicodeData) (city1 city2 : str) (state : gmap str value) :
  all_ascii city1 = true ->
  all_ascii city2 = true ->
  List.map ascii_lower city1 = List.map ascii_lower city2 ->
  found u city1 = true ->
  result_of (get_weather_stateful u city1 state)
  = result_of (get_weather_stateful u city2 state).
Proof.
  intros H1 H2 Hsame Hf. apply found_true in Hf as [w Hk1].
  assert (Hk2 : mock_weather_db !! normalize u city2 = Some w).
  { rewrite (normalize_ascii u city2 H2), <- Hsame,
      <- (normalize_ascii u city1 H1). exact Hk1. }
  rewrite (gws_found u city1 state w Hk1), (gws_found u city2 state w Hk2).
  rewrite (capitalize_ascii_by_lower u city1 H1),
    (capitalize_ascii_by_lower u city2 H2), Hsame.
  reflexivity.
Qed.

Lemma X4_witness :
  all_ascii (py "LONDON") = true /\
  all_ascii (py "london") = true /\
  List.map ascii_lower (py "LONDON") = List.map ascii_lower (py "london") /\
  found uncased (py "LONDON") = true /\
  result_of (get_weather_stateful uncased (py "LONDON") fahrenheit_state)
  = result_of (get_weather_stateful uncased (py "london") fahrenheit_state).
Proof.
  assert (H1 : all_ascii (py "LONDON") = true) by (vm_compute; reflexivity).
  assert (H2 : all_ascii (py "london") = true) by (vm_compute; reflexivity).
  assert (H3 : List.map ascii_lower (py "LONDON")
               = List.map ascii_lower (py "london"))
    by (vm_compute; reflexivity).
  assert (H4 : found uncased (py "LONDON") = true)
    by (vm_compute; reflexivity).
  repeat (split; [assumption |]).
  exact (X4_letter_case_does_not_show uncased (py "LONDON") (py "london")
           fahrenheit_state H1 H2 H3 H4).
Defined.

(** X5: a space put anywhere into an ASCII city name, in front, inside or at
    the end, does not change whether the city is found. *)
Theorem X5_spaces_do_not_matter
    (u : UnicodeData) (before after : str) (state : gmap str value) :
  all_ascii (before ++ after) = true ->
  field "status" (get_weather_stateful u (before ++ space :: after) state)
  = field "status" (get_weather_stateful u (before ++ after) state).
Proof.
  intros Hs.
  assert (Hs' : all_ascii (before ++ space :: after) = true).
  { rewrite all_ascii_app in Hs |- *. simpl.
    apply andb_true_iff in Hs as [-> ->]. reflexivity. }
  assert (Hn : normalize u (before ++ space :: after)
               = normalize u (before ++ after)).
  { rewrite (normalize_ascii u _ Hs), (normalize_ascii u _ Hs').
    rewrite !List.map_app, !remove_spaces_app. reflexivity. }
  destruct (mock_weather_db !! normalize u (before ++ after))
    as [w |] eqn:Hk.
  - assert (Hk' := Hk). rewrite <- Hn in Hk'.
    rewrite (gws_found u _ state w Hk), (gws_found u _ state w Hk').
    reflexivity.
  - assert (Hk' := Hk). rewrite <- Hn in Hk'.
    rewrite (gws_missing u _ state Hk), (gws_missing u _ state Hk').
    reflexivity.
Qed.

Lemma X5_witness :
  all_ascii (py "New" ++ py "York") = true /\
  field "status"
    (get_weather_stateful uncased (py "New" ++ space :: py "York") ∅)
  = field "status" (get_weather_stateful uncased (py "New" ++ py "York") ∅).
Proof.
  assert (H : all_ascii (py "New" ++ py "York") = true)
    by (vm_compute; reflexivity).
  split; [exact H |].
  exact (X5_spaces_do_not_matter uncased (py "New") (py "York") ∅ H).
Defined.

(** X6: the normalized key of an ASCII city normalizes to itself, so the key
    is found exactly when the city is. *)
Theorem X6_normalized_key_is_stable (u : UnicodeData) (city : str) :
  all_ascii city = true ->
  normalize u (normalize u city) = normalize u city /\
  found u (normalize u city) = found u city.
Proof.
  intros Hs.
  assert (Hn : normalize u (normalize u city) = normalize u city).
  { rewrite (normalize_ascii u city Hs).
    rewrite normalize_ascii
      by (apply all_ascii_remove_spaces, all_ascii_lower, Hs).
    rewrite remove_spaces_lower, remove_spaces_idem, <- remove_spaces_lower.
    rewrite List.map_map.
    rewrite (map_ext _ ascii_lower ascii_lower_idem). reflexivity. }
  split; [exact Hn |]. unfold found. rewrite Hn. reflexivity.
Qed.

Lemma X6_witness :
  all_ascii (py " New York ") = true /\
  normalize uncased (normalize uncased (py " New York "))
  = normalize uncased (py " New York ") /\
  found uncased (normalize uncased (py " New York "))
  = found uncased (py " New York ").
Proof.
  assert (H : all_ascii (py " New York ") = true)
    by (vm_compute; reflexivity).
  split; [exact H |].
  exact (X6_normalized_key_is_stable uncased (py " New York ") H).
Defined.

(** ** The stateless tool beside the state-aware one *)

Lemma stateless_lookup_None (k : str) :
  mock_weather_db !! k = None -> Stateless.mock_weather_db !! k = None.
Proof.
  unfold mock_weather_db, Stateless.mock_weather_db.
  rewrite !lookup_insert_None, !lookup_singleton_None. tauto.
Qed.

Lemma stateless_lookup_Some (k : str) (w : weather) :
  mock_weather_db !! k = Some w ->
  exists report,
    Stateless.mock_weather_db !! k
    = Some {[ py "status" := py "success"; py "report" := report ]} /\
    occurs_in (condition w) report /\
    occurs_in (celsius_text (temp_c w)) report.
Proof.
  intros Hk. apply db_lookup_Some in Hk.
  destruct Hk as [[-> ->] | [[-> ->] | [-> ->]]];
    eexists; (split; [reflexivity |]); split.
  - exists (py "The weather in New York is "),
      (py " with a temperature of 25" ++ degree :: py "C."). reflexivity.
  - exists (py "The weather in New York is sunny with a temperature of "),
      (py "."). reflexivity.
  - exists (py "It's "),
      (py " in London with a temperature of 15" ++ degree :: py "C.").
    reflexivity.
  - exists (py "It's cloudy in London with a temperature of "), (py ".").
    reflexivity.
  - exists (py "Tokyo is experiencing "),
      (py " and a temperature of 18" ++ degree :: py "C."). reflexivity.
  - exists (py "Tokyo is experiencing light rain and a temperature of "),
      (py "."). reflexivity.
Qed.

(** Without its trace output, the stateless tool returns for every city,
    with the status the state-aware tool returns, and on an error the same
    dictionary. *)
Lemma stateless_value_agrees
    (u : UnicodeData) (city : str) (state : gmap str value) :
  exists result,
    Stateless.get_weather u city = ret result /\
    result !! py "status"
    = field "status" (get_weather_stateful u city state) /\
    (result !! py "status" = Some (py "error") ->
     Some result = result_of (get_weather_stateful u city state)).
Proof.
  unfold Stateless.get_weather, contains, getitem. fold (normalize u city).
  destruct (mock_weather_db !! normalize u city) as [w |] eqn:Hk.
  - destruct (stateless_lookup_Some _ w Hk) as (report & Hr & _).
    rewrite Hr, bool_decide_eq_true_2 by eauto.
    rewrite (gws_found u city state w Hk).
    eexists. split; [reflexivity |]. split; [reflexivity |]. discriminate.
  - rewrite (stateless_lookup_None _ Hk).
    rewrite bool_decide_eq_false_2 by (intros [? ?]; discriminate).
    rewrite (gws_missing u city state Hk).
    eexists. split; [reflexivity |]. split; reflexivity.
Qed.

(** X7: when standard output can write its trace line, the stateless tool
    returns a dictionary with the status the state-aware tool returns for
    that city, and on an error the same dictionary; when the line cannot
    be written the print raises [UnicodeEncodeError]. It raises nothing
    else: the table lookup is guarded. *)
Theorem X7_both_tools_find_the_same_cities
    (rt : Traced.Runtime) (u : UnicodeData) (city : str) (w : Traced.world)
    (state : gmap str value) :
  let line := py "--- Tool: get_weather called for city: " ++ city
              ++ py " ---" in
  (Traced.can_print_all rt [line] = true ->
   exists result,
     Traced.get_weather rt u city w
     = ({| Traced.stdout := Traced.stdout w ++ line ++ Traced.newline;
           Traced.session := Traced.session w |}, inr result) /\
     result !! py "status"
     = field "status" (get_weather_stateful u city state) /\
     (result !! py "status" = Some (py "error") ->
      Some result = result_of (get_weather_stateful u city state))) /\
  (Traced.can_print_all rt [line] = false ->
   exists w',
     Traced.get_weather rt u city w = (w', inl Traced.UnicodeEncodeError)).
Proof.
  intros line. unfold Traced.can_print_all. cbn [forallb].
  rewrite andb_true_r. unfold Traced.get_weather. fold line.
  destruct (TracedFacts.print_spec rt line w)
    as [[Hc Hp] | [Hc (w' & Hp & _)]]; rewrite Hc.
  - split; [| discriminate]. intros _.
    rewrite (TracedFacts.io_bind_ret _ _ _ _ _ Hp).
    destruct (stateless_value_agrees u city state)
      as (result & Hvalue & Hstatus & Herror).
    exists result. unfold Traced.lift. rewrite Hvalue.
    split; [reflexivity |]. split; assumption.
  - split; [discriminate |]. intros _.
    rewrite (TracedFacts.io_bind_raise _ _ _ _ _ Hp). eauto.
Qed.

Lemma X7_witness :
  Traced.can_print_all Traced.utf8_stdout
    [py "--- Tool: get_weather called for city: " ++ py "Paris"
     ++ py " ---"] = true /\
  exists result,
    Traced.get_weather Traced.utf8_stdout uncased (py "Paris")
      (Traced.fresh ∅)
    = ({| Traced.stdout :=
            Traced.stdout (Traced.fresh ∅)
            ++ (py "--- Tool: get_weather called for city: " ++ py "Paris"
                ++ py " ---")
            ++ Traced.newline;
          Traced.session := Traced.session (Traced.fresh ∅) |}, inr result) /\
    result !! py "status"
    = field "status" (get_weather_stateful uncased (py "Paris") ∅) /\
    (result !! py "status" = Some (py "error") ->
     Some result = result_of (get_weather_stateful uncased (py "Paris") ∅)).
Proof.
  assert (H : Traced.can_print_all Traced.utf8_stdout
                [py "--- Tool: get_weather called for city: " ++ py "Paris"
                 ++ py " ---"] = true).
  { vm_compute. reflexivity. }
  split; [exact H |].
  exact (proj1 (X7_both_tools_find_the_same_cities Traced.utf8_stdout uncased
                  (py "Paris") (Traced.fresh ∅) ∅) H).
Defined.

(** X8: for a city of the state-aware table the stateless tool returns a
    report that names the same condition and the same Celsius
    temperature. *)
Theorem X8_both_tools_hold_the_same_weather
    (u : UnicodeData) (city : str) (w : weather) :
  mock_weather_db !! normalize u city = Some w ->
  exists report,
    Stateless.get_weather u city
    = ret {[ py "status" := py "success"; py "report" := report ]} /\
    occurs_in (condition w) report /\
    occurs_in (decimal (temp_c w) ++ degree :: py "C") report.
Proof.
  intros Hk. destruct (stateless_lookup_Some _ w Hk) as (report & Hr & Hc & Ht).
  exists report. split; [| split; assumption].
  unfold Stateless.get_weather, contains, getitem. fold (normalize u city).
  rewrite Hr, bool_decide_eq_true_2 by eauto. reflexivity.
Qed.

Lemma X8_witness :
  mock_weather_db !! normalize uncased (py "tokyo")
  = Some {| temp_c := 18; condition := py "light rain" |} /\
  exists report,
    Stateless.get_weather uncased (py "tokyo")
    = ret {[ py "status" := py "success"; py "report" := report ]} /\
    occurs_in (py "light rain") report /\
    occurs_in (decimal 18 ++ degree :: py "C") report.
Proof.
  assert (H : mock_weather_db !! normalize uncased (py "tokyo")
              = Some {| temp_c := 18; condition := py "light rain" |})
    by (vm_compute; reflexivity).
  split; [exact H |].
  exact (X8_both_tools_hold_the_same_weather uncased (py "tokyo") _ H).
Defined.

(** ** The greeting *)

(** X9: two greetings are the same text exactly when they are for the same
    name, a call without a name counting as one for "there". *)
Theorem X9_greeting_tells_the_name (name1 name2 : option str) :
  say_hello name1 = say_hello name2
  <-> default (py "there") name1 = default (py "there") name2.
Proof.
  unfold say_hello.
  change (match name1 with Some n => n | None => py "there" end)
    with (default (py "there") name1).
  change (match name2 with Some n => n | None => py "there" end)
    with (default (py "there") name2).
  split.
  - intros H. apply app_inv_head in H. apply app_inv_tail in H. exact H.
  - intros ->. reflexivity.
Qed.

(** ** The response loop *)

Module DriverFacts.
Import Driver.

Lemma loop_passes (pre rest : list step) (held : option str) :
  forallb passed_over pre = true ->
  response_loop (pre ++ rest) held = response_loop rest held.
Proof.
  induction pre as [| s pre IH]; [reflexivity |]. simpl.
  rewrite andb_true_iff. intros [Hs Hpre].
  destruct s as [event | e]; [| discriminate Hs]. simpl in Hs.
  apply negb_true_iff in Hs. rewrite Hs. apply IH, Hpre.
Qed.

Lemma loop_stops (event : Event) (rest : list step) (held : option str) :
  is_final_response event = true ->
  response_loop (Yield event :: rest) held
  = response_loop [Yield event] held.
Proof. intros H. simpl. rewrite H. reflexivity. Qed.

End DriverFacts.

(** X10: when the stream ends without a final response, and without raising,
    the text is "Agent did not produce a final response.". *)
Theorem X10_no_final_response (stream : list Driver.step) :
  forallb Driver.passed_over stream = true ->
  Driver.final_response_text stream
  = inr (Some (py "Agent did not produce a final response.")).
Proof.
  intros H. unfold Driver.final_response_text.
  rewrite <- (app_nil_r stream).
  rewrite (DriverFacts.loop_passes stream [] _ H). reflexivity.
Qed.

Lemma X10_witness :
  forallb Driver.passed_over
    [Driver.Yield Driver.thinking; Driver.Yield Driver.thinking] = true /\
  Driver.final_response_text
    [Driver.Yield Driver.thinking; Driver.Yield Driver.thinking]
  = inr (Some (py "Agent did not produce a final response.")).
Proof.
  assert (H : forallb Driver.passed_over
                [Driver.Yield Driver.thinking; Driver.Yield Driver.thinking]
              = true) by reflexivity.
  split; [exact H |]. exact (X10_no_final_response _ H).
Defined.

(** X11: the first final response decides the text: what the stream holds
    after it, further final responses and exceptions included, is never
    read. *)
Theorem X11_first_final_response_decides
    (pre post : list Driver.step) (event : Driver.Event) :
  forallb Driver.passed_over pre = true ->
  Driver.is_final_response event = true ->
  Driver.final_response_text (pre ++ Driver.Yield event :: post)
  = Driver.final_response_text [Driver.Yield event].
Proof.
  intros Hpre Hfinal. unfold Driver.final_response_text.
  rewrite (DriverFacts.loop_passes pre _ _ Hpre).
  apply DriverFacts.loop_stops, Hfinal.
Qed.

Lemma X11_witness :
  forallb Driver.passed_over [Driver.Yield Driver.thinking] = true /\
  Driver.is_final_response Driver.silent = true /\
  Driver.final_response_text
    ([Driver.Yield Driver.thinking]
     ++ Driver.Yield Driver.silent
        :: [Driver.Yield (Driver.answer (Some (py "late")));
            Driver.Raise (Driver.Raised (py "closed"))])
  = Driver.final_response_text [Driver.Yield Driver.silent].
Proof.
  assert (H1 : forallb Driver.passed_over [Driver.Yield Driver.thinking]
               = true) by reflexivity.
  assert (H2 : Driver.is_final_response Driver.silent = true) by reflexivity.
  split; [exact H1 |]. split; [exact H2 |].
  exact (X11_first_final_response_decides _ _ _ H1 H2).
Defined.

(** X12: an exception leaves the loop only when the stream raised it: taking
    the first part of a final response never fails. *)
Theorem X12_only_the_stream_raises
    (stream : list Driver.step) (held : option str) (e : Driver.exception) :
  Driver.response_loop stream held = inl e -> In (Driver.Raise e) stream.
Proof.
  induction stream as [| s rest IH]; [discriminate |].
  destruct s as [event | e']; simpl.
  - destruct (Driver.is_final_response event).
    + case_bool_decide as Hparts.
      * destruct (Driver.content_parts event); [contradiction | discriminate].
      * destruct (Driver.escalates event); discriminate.
    + intros H. right. apply IH, H.
  - intros [= ->]. left. reflexivity.
Qed.

Lemma X12_witness :
  Driver.response_loop
    [Driver.Yield Driver.thinking; Driver.Raise (Driver.Raised (py "lost"))]
    None
  = inl (Driver.Raised (py "lost")) /\
  In (Driver.Raise (Driver.Raised (py "lost")))
    [Driver.Yield Driver.thinking; Driver.Raise (Driver.Raised (py "lost"))].
Proof.
  assert (H : Driver.response_loop
                [Driver.Yield Driver.thinking;
                 Driver.Raise (Driver.Raised (py "lost"))] None
              = inl (Driver.Raised (py "lost"))) by reflexivity.
  split; [exact H |]. exact (X12_only_the_stream_raises _ _ _ H).
Defined.

(** X13: the text comes out as Python's [None] only when the deciding final
    response, the first one in the stream, has a first part without
    text. *)
Theorem X13_text_is_none_only_for_a_part_without_text
    (stream : list Driver.step) :
  Driver.final_response_text stream = inr None ->
  exists pre event post part others,
    stream = pre ++ Driver.Yield event :: post /\
    forallb Driver.passed_over pre = true /\
    Driver.is_final_response event = true /\
    Driver.content_parts event = part :: others /\
    Driver.text part = None.
Proof.
  unfold Driver.final_response_text.
  generalize (py "Agent did not produce a final response."). intros d.
  induction stream as [| s rest IH]; [discriminate |].
  destruct s as [event | e']; simpl; [| discriminate].
  destruct (Driver.is_final_response event) eqn:Hfinal.
  - case_bool_decide as Hparts.
    + destruct (Driver.content_parts event) as [| part others] eqn:Hcp;
        [contradiction |].
      intros [= Htext]. exists [], event, rest, part, others.
      repeat split; auto.
    + destruct (Driver.escalates event); discriminate.
  - intros H.
    destruct (IH H) as (pre & event' & post & part & others
                        & -> & Hpre & Hrest).
    exists (Driver.Yield event :: pre), event', post, part, others.
    split; [reflexivity |]. split; [| exact Hrest].
    simpl. rewrite Hfinal, Hpre. reflexivity.
Qed.

Lemma X13_witness :
  Driver.final_response_text
    [Driver.Yield Driver.thinking; Driver.Yield (Driver.answer None)]
  = inr None /\
  exists pre event post part others,
    [Driver.Yield Driver.thinking; Driver.Yield (Driver.answer None)]
    = pre ++ Driver.Yield event :: post /\
    forallb Driver.passed_over pre = true /\
    Driver.is_final_response event = true /\
    Driver.content_parts event = part :: others /\
    Driver.text part = None.
Proof.
  assert (H : Driver.final_response_text
                [Driver.Yield Driver.thinking;
                 Driver.Yield (Driver.answer None)]
              = inr None) by reflexivity.
  split; [exact H |].
  exact (X13_text_is_none_only_for_a_part_without_text _ H).
Defined.
